(** * load_dask: loading a dataset into an existing dask cluster

    A shallow embedding of the handler [load_dask] of
    [load_dask/load_dask.ipynb] and of the three collaborators it drives
    (the dask client found in the run context, the data item, and the run
    context's artifact logger), followed by the properties of the handler.

    The handler is straight-line glue code, so it is written in a small
    state-and-exception monad.  A raised exception keeps the effects that
    happened before it, as in Python. *)

From stdpp Require Import base option strings list gmap fin_maps functions.

(** ** Python values the model needs *)

(** Exceptions.  [Exception] is the builtin class the handler raises
    itself; [KeyError] is what [Client.publish_dataset] raises for a name
    that is already taken. *)
Inductive PyExc : Type :=
  | Exception (msg : string)
  | KeyError (msg : string).

(** What a call hands back to its caller: the handler has no [return]
    statement, so it yields [None]; [PyStr] stands for a text result such
    as a JSON document. *)
Inductive PyValue : Type :=
  | PyNone
  | PyStr (s : string).

(** Result of running a computation: a value, or a raised exception. *)
Inductive outcome (A : Type) : Type :=
  | Returned (v : A)
  | Raised (e : PyExc).
Arguments Returned {A} v.
Arguments Raised {A} e.

(** Identity of a [dask.distributed.Client] object.  Two names bound to the
    same handle alias the same client. *)
Definition handle : Type := nat.

Section LoadDask.

(** The data item and the dataframe are opaque to the handler. *)
Context {DataItem DataFrame : Type}.

(** [src_data.as_df(df_module=dd)]: the dataframe the item resolves to,
    or the exception the loader raises. *)
Variable as_df : DataItem → PyExc + DataFrame.

(** The collection [Client.persist] returns for a dataframe. *)
Variable persist : DataFrame → DataFrame.

(** *** State *)

(** A client: the published-dataset registry of its cluster
    ([Client.datasets]) and the scheduler information
    [write_scheduler_file] dumps. *)
Record Client : Type := mkClient {
  datasets : gmap string DataFrame;
  scheduler_info : string
}.

(** The run context.  [dask_client] is [None] when the object has no
    such attribute.  [truthy] is [bool(context)], tested by
    [if context:].  [artifacts] are the logged (key, local path)
    pairs, oldest first. *)
Record MLClientCtx : Type := mkCtx {
  dask_client : option handle;
  truthy : bool;
  artifacts : list (string * string)
}.

(** Calls made on the collaborators, in program order. *)
Inductive Event : Type :=
  | Ev_as_df (src_data : DataItem)
  | Ev_persist (c : handle) (df : DataFrame)
  | Ev_unpublish_dataset (c : handle) (name : string)
  | Ev_publish_dataset (c : handle) (df : DataFrame) (name : string)
  | Ev_write_scheduler_file (c : handle) (path : string)
  | Ev_log_artifact (key local_path : string).

(** Everything the handler can read or change: the context object, the
    client objects, the local files, and the log of collaborator calls. *)
Record State : Type := mkState {
  context : MLClientCtx;
  clients : handle → Client;
  files : gmap string string;
  trace : list Event
}.

Definition set_context (f : MLClientCtx → MLClientCtx) (s : State) : State :=
  mkState (f (context s)) (clients s) (files s) (trace s).
Definition set_clients (f : (handle → Client) → handle → Client) (s : State) : State :=
  mkState (context s) (f (clients s)) (files s) (trace s).
Definition set_files (f : gmap string string → gmap string string) (s : State) : State :=
  mkState (context s) (clients s) (f (files s)) (trace s).
Definition set_trace (f : list Event → list Event) (s : State) : State :=
  mkState (context s) (clients s) (files s) (f (trace s)).
Definition set_datasets (f : gmap string DataFrame → gmap string DataFrame)
    (c : Client) : Client :=
  mkClient (f (datasets c)) (scheduler_info c).

(** *** The monad *)

Definition M (A : Type) : Type := State → outcome A * State.

#[local] Instance M_ret : MRet M := λ A v s, (Returned v, s).
#[local] Instance M_bind : MBind M := λ A B k m s,
  match m s with
  | (Returned v, s') => k v s'
  | (Raised e, s') => (Raised e, s')
  end.
#[local] Instance M_throw : MThrow PyExc M := λ A e s, (Raised e, s).

Definition get : M State := λ s, (Returned s, s).
Definition modify (f : State → State) : M unit := λ s, (Returned (), f s).
Definition emit (e : Event) : M unit := modify (set_trace (λ t, t ++ [e])).

(** *** The collaborators *)

(** Modelled from the spec: [DataItem.as_df] of the orchestration
    library, the data-loading collaborator.  [src_data.as_df(df_module=dd)]
    resolves the item to a dataframe or raises; its failure reaches the
    caller as it is. *)
Definition DataItem_as_df (src_data : DataItem) : M DataFrame :=
  emit (Ev_as_df src_data);;
  match as_df src_data with
  | inl e => mthrow e
  | inr df => mret df
  end.

(** Modelled from the spec: [Client.persist] of the dask library,
    [persist(dataframe) -> handle].  [client.persist(df)] hands back the
    materialized collection and leaves the registry alone.  A failure of
    the cluster runtime during the call is not represented: here the call
    completes. *)
Definition Client_persist (c : handle) (df : DataFrame) : M DataFrame :=
  emit (Ev_persist c df);;
  mret (persist df).

(** Modelled from the spec: [Client.datasets] of the dask library, the
    queryable set of currently published names, a mapping view. *)
Definition Client_datasets (c : handle) : M (gmap string DataFrame) :=
  s ← get; mret (datasets (clients s c)).

(** [bool(client.datasets)]: a mapping is true when it is not empty. *)
Definition datasets_bool (ds : gmap string DataFrame) : bool :=
  bool_decide (ds ≠ ∅).

(** [name in client.datasets] *)
Definition datasets_contains (name : string) (ds : gmap string DataFrame) : bool :=
  bool_decide (is_Some (ds !! name)).

(** Modelled from the spec: [Client.unpublish_dataset] of the dask
    library.  [client.unpublish_dataset(name)] drops the name from the
    registry; nothing happens for an unknown name. *)
Definition Client_unpublish_dataset (c : handle) (name : string) : M unit :=
  emit (Ev_unpublish_dataset c name);;
  modify (set_clients (alter (set_datasets (delete name)) c)).

(** Modelled from the spec: [Client.publish_dataset] of the dask library.
    [client.publish_dataset(df, name=name)] registers the dataframe; a name
    holds at most one dataset, and publishing under a taken name is a
    naming collision, refused with [KeyError].  Other refusals of the
    cluster runtime are not represented. *)
Definition Client_publish_dataset (c : handle) (df : DataFrame) (name : string) : M unit :=
  emit (Ev_publish_dataset c df name);;
  ds ← Client_datasets c;
  if datasets_contains name ds
  then mthrow (KeyError ("Dataset " +:+ name +:+ " already exists"))
  else modify (set_clients (alter (set_datasets (insert name df)) c)).

(** Modelled from the spec: [Client.write_scheduler_file] of the dask
    library, [write_scheduler_file(path) -> JSON file on disk].  The file
    is written afresh with the cluster's current scheduler information,
    replacing earlier content.  Not represented: a failure of the file
    system, and the refusal dask gives to a client object that has already
    written its scheduler file; a handle stands for the connection to a
    cluster, which each job reaches through a client of its own. *)
Definition Client_write_scheduler_file (c : handle) (path : string) : M unit :=
  emit (Ev_write_scheduler_file c path);;
  s ← get;
  modify (set_files (insert path (scheduler_info (clients s c)))).

(** Modelled from the spec: [MLClientCtx.log_artifact] of the
    orchestration library, the artifact-logging collaborator.
    [context.log_artifact(key, local_path=local_path)] records the pair as
    an output of the run.  A rejection by the artifact store is not
    represented: here the call completes. *)
Definition MLClientCtx_log_artifact (key local_path : string) : M unit :=
  emit (Ev_log_artifact key local_path);;
  modify (set_context (λ ctx,
    mkCtx (dask_client ctx) (truthy ctx) (artifacts ctx ++ [(key, local_path)]))).

(** [context.dask_client = c] *)
Definition MLClientCtx_set_dask_client (c : handle) : M unit :=
  modify (set_context (λ ctx, mkCtx (Some c) (truthy ctx) (artifacts ctx))).

(** *** The handler *)

(** [load_dask(context, src_data, dask_key, inc_cols, index_cols,
    dask_persist, refresh_data, scheduler_key)].  The context argument is
    the object held in the state.  [inc_cols], [index_cols] and
    [refresh_data] are accepted and never read, as in the source. *)
Definition load_dask (src_data : DataItem) (dask_key : string)
    (inc_cols index_cols : option (list string))
    (dask_persist refresh_data : bool) (scheduler_key : string) : M PyValue :=
  s0 ← get;
  dask_client ←
    match dask_client (context s0) with
    | Some c => mret c
    | None => mthrow (Exception "a dask client was not found in the execution context")
    end;
  df ← DataItem_as_df src_data;
  (if dask_persist then
     df ← Client_persist dask_client df;
     ds ← Client_datasets dask_client;
     (if datasets_bool ds && datasets_contains dask_key ds
      then Client_unpublish_dataset dask_client dask_key
      else mret ());;
     Client_publish_dataset dask_client df dask_key
   else mret ());;
  s1 ← get;
  (if truthy (context s1)
   then MLClientCtx_set_dask_client dask_client
   else mret ());;
  Client_write_scheduler_file dask_client (scheduler_key +:+ ".json");;
  MLClientCtx_log_artifact scheduler_key (scheduler_key +:+ ".json");;
  mret PyNone.

End LoadDask.

Arguments Client : clear implicits.
Arguments State : clear implicits.
Arguments Event : clear implicits.
Arguments M : clear implicits.

(** ** Observations on states *)

(** The collaborator calls made on the way from state [s] to state [s']. *)
Definition calls_since {DataItem DataFrame : Type}
    (s s' : State DataItem DataFrame) : list (Event DataItem DataFrame) :=
  drop (length (trace s)) (trace s').

(** Calls that touch the registry of published datasets. *)
Definition registry_call {DataItem DataFrame : Type}
    (e : Event DataItem DataFrame) : bool :=
  match e with
  | Ev_persist _ _ | Ev_unpublish_dataset _ _ | Ev_publish_dataset _ _ _ => true
  | _ => false
  end.

(** The dataframes a registry holds under [name], one per registration. *)
Definition registrations {DataFrame : Type} (name : string)
    (ds : gmap string DataFrame) : list DataFrame :=
  omap (λ kv, if decide (kv.1 = name) then Some kv.2 else None) (map_to_list ds).

(** The client store after the registry step of the handler: the name is
    dropped when it is taken, then bound to the persisted dataframe. *)
Definition republished {DataFrame : Type} (persist : DataFrame → DataFrame)
    (c : handle) (key : string) (df : DataFrame)
    (cl : handle → Client DataFrame) : handle → Client DataFrame :=
  alter (set_datasets (insert key (persist df))) c
    (if datasets_contains key (datasets (cl c))
     then alter (set_datasets (delete key)) c cl
     else cl).

(** Calls that write or log the scheduler descriptor. *)
Definition descriptor_call {DataItem DataFrame : Type}
    (e : Event DataItem DataFrame) : bool :=
  match e with
  | Ev_write_scheduler_file _ _ | Ev_log_artifact _ _ => true
  | _ => false
  end.

(** A descriptor call uses the file name [scheduler_key + ".json"], and
    the artifact key [scheduler_key]. *)
Definition named_after {DataItem DataFrame : Type} (scheduler_key : string)
    (e : Event DataItem DataFrame) : Prop :=
  match e with
  | Ev_write_scheduler_file _ path => path = scheduler_key +:+ ".json"
  | Ev_log_artifact key local_path =>
      key = scheduler_key ∧ local_path = scheduler_key +:+ ".json"
  | _ => True
  end.

(** The change one collaborator call makes to the client store, as the
    collaborators above make it: [unpublish_dataset] drops the name,
    [publish_dataset] binds a name that is free and leaves a taken one (it
    raises), and no other call touches a registry. *)
Definition apply_call {DataItem DataFrame : Type}
    (e : Event DataItem DataFrame) (cl : handle → Client DataFrame)
    : handle → Client DataFrame :=
  match e with
  | Ev_unpublish_dataset c name => alter (set_datasets (delete name)) c cl
  | Ev_publish_dataset c df name =>
      if datasets_contains name (datasets (cl c)) then cl
      else alter (set_datasets (insert name df)) c cl
  | _ => cl
  end.

(** The client store after a sequence of calls, starting from [cl]. *)
Fixpoint replay {DataItem DataFrame : Type}
    (calls : list (Event DataItem DataFrame)) (cl : handle → Client DataFrame)
    : handle → Client DataFrame :=
  match calls with
  | [] => cl
  | e :: calls' => replay calls' (apply_call e cl)
  end.

(** Every [unpublish_dataset] call of the sequence finds its name in the
    registry as it is at that call, that is, after the calls before it;
    that registry is then not empty. *)
Fixpoint unpublish_registered {DataItem DataFrame : Type}
    (cl : handle → Client DataFrame) (calls : list (Event DataItem DataFrame))
    : Prop :=
  match calls with
  | [] => True
  | e :: calls' =>
      match e with
      | Ev_unpublish_dataset c name =>
          is_Some (datasets (cl c) !! name) ∧ datasets (cl c) ≠ ∅
      | _ => True
      end
      ∧ unpublish_registered (apply_call e cl) calls'
  end.

(** Every [publish_dataset] call of the sequence finds its name free in
    the registry as it is at that call. *)
Fixpoint publish_unregistered {DataItem DataFrame : Type}
    (cl : handle → Client DataFrame) (calls : list (Event DataItem DataFrame))
    : Prop :=
  match calls with
  | [] => True
  | e :: calls' =>
      match e with
      | Ev_publish_dataset c _ name => datasets (cl c) !! name = None
      | _ => True
      end
      ∧ publish_unregistered (apply_call e cl) calls'
  end.

(** ** A concrete run, used to exercise the statements below *)

Module Demo.

(** Data items are urls, dataframes are columns of numbers. *)
Definition as_df (url : string) : PyExc + list nat :=
  if decide (url = "iris.parquet") then inr [5; 3; 1]
  else if decide (url = "wine.parquet") then inr [7; 2]
  else inl (Exception ("cannot read " +:+ url)).

Definition persist (df : list nat) : list nat := df.

Definition cluster (ds : gmap string (list nat)) : handle → Client (list nat) :=
  λ _, mkClient ds "{address: tcp://10.0.0.7:8786}".

(** A context without a client. *)
Definition s_no_client : State string (list nat) :=
  mkState (mkCtx None true []) (cluster ∅) ∅ [].

(** A context with client 0 on a cluster with an empty registry. *)
Definition s_fresh : State string (list nat) :=
  mkState (mkCtx (Some 0) true []) (cluster ∅) ∅ [].

(** The same, with a dataset registered under "dask_key" and a stale
    descriptor file. *)
Definition s_taken : State string (list nat) :=
  mkState (mkCtx (Some 0) true [])
    (cluster {[ "dask_key" := [9; 9] ]})
    {[ "scheduler.json" := "{address: tcp://10.0.0.1:8786}" ]} [].

Definition run (src : string) (dask_persist refresh_data : bool) :=
  load_dask as_df persist src "dask_key" None None
    dask_persist refresh_data "scheduler".

End Demo.

(** ** The configuration cell

    The notebook cell under the heading "mlconfig" fills in two settings
    of the process-wide configuration object when they are not set:

      mlconf.dbpath = mlconf.dbpath or 'http://mlrun-api:8080'
      mlconf.artifact_path = mlconf.artifact_path or f'{os.environ["HOME"]}/artifacts'
*)

(** [bool(v)]: [None] and the empty string are false. *)
Definition py_truthy (v : PyValue) : bool :=
  match v with
  | PyNone => false
  | PyStr EmptyString => false
  | PyStr (String _ _) => true
  end.

(** [a or b]: [a] when it is true; otherwise [b], which is evaluated only
    then and may raise. *)
Definition py_or (a : PyValue) (b : outcome PyValue) : outcome PyValue :=
  if py_truthy a then Returned a else b.

(** The two attributes of [mlconf] the cell reads and assigns. *)
Record Config : Type := mkConfig {
  dbpath : PyValue;
  artifact_path : PyValue
}.

(** [os.environ[key]]: the value, or [KeyError(key)]. *)
Definition environ_getitem (environ : gmap string string) (key : string)
    : outcome string :=
  match environ !! key with
  | Some v => Returned v
  | None => Raised (KeyError key)
  end.

(** The cell, statement by statement: the configuration after it, and
    whether it completed. *)
Definition mlconfig (environ : gmap string string) (mlconf : Config)
    : outcome unit * Config :=
  match py_or (dbpath mlconf) (Returned (PyStr "http://mlrun-api:8080")) with
  | Raised e => (Raised e, mlconf)
  | Returned v =>
      let mlconf := mkConfig v (artifact_path mlconf) in
      match py_or (artifact_path mlconf)
              (match environ_getitem environ "HOME" with
               | Returned home => Returned (PyStr (home +:+ "/artifacts"))
               | Raised e => Raised e
               end) with
      | Raised e => (Raised e, mlconf)
      | Returned v => (Returned (), mkConfig (dbpath mlconf) v)
      end
  end.

Module ConfigDemo.

(** A fresh configuration, as the library ships it. *)
Definition unset : Config := mkConfig (PyStr "") (PyStr "").

(** A configuration the user has filled in. *)
Definition preset : Config :=
  mkConfig (PyStr "http://10.0.0.5:8080") (PyStr "/mnt/artifacts").

Definition env_home : gmap string string := {[ "HOME" := "/home/joyan" ]}.
Definition env_bare : gmap string string := ∅.

End ConfigDemo.

Section Properties.

Context {DataItem DataFrame : Type}.
Variable as_df : DataItem → PyExc + DataFrame.
Variable persist : DataFrame → DataFrame.

#[local] Abbreviation State := (State DataItem DataFrame).
#[local] Abbreviation Event := (Event DataItem DataFrame).
#[local] Abbreviation load_dask := (load_dask as_df persist).

Implicit Types (s : State) (c : handle) (df : DataFrame).

(** Reduction is restricted to the monad, the setters and the record
    projections, so that map and string operations stay folded. *)
Ltac step :=
  cbn [set_context set_clients set_files set_trace
       context clients files trace dask_client truthy artifacts
       datasets scheduler_info set_datasets fst snd].

Ltac run_monad :=
  unfold load_dask, DataItem_as_df, Client_persist,
    Client_unpublish_dataset, Client_publish_dataset, Client_datasets,
    Client_write_scheduler_file, MLClientCtx_log_artifact,
    MLClientCtx_set_dask_client, emit, modify, get,
    mbind, M_bind, mret, M_ret, mthrow, M_throw; step.

(** Nested setters are evaluated innermost first, on a state that has
    been taken apart into its fields. *)
Ltac settle :=
  cbv [set_context set_clients set_files set_trace set_datasets
       context clients files trace dask_client truthy artifacts];
  rewrite ?fn_lookup_alter;
  cbv [set_datasets datasets scheduler_info];
  rewrite <- ?app_assoc; cbn [app].

Lemma load_dask_no_client src key ic xc p rd sk s :
  dask_client (context s) = None →
  load_dask src key ic xc p rd sk s =
    (Raised (Exception "a dask client was not found in the execution context"), s).
Proof. intros H. run_monad. by rewrite H. Qed.

Lemma load_dask_load_fails src key ic xc p rd sk s c e :
  dask_client (context s) = Some c →
  as_df src = inl e →
  load_dask src key ic xc p rd sk s =
    (Raised e, set_trace (λ t, t ++ [Ev_as_df src]) s).
Proof. intros Hc He. run_monad. rewrite Hc; step. by rewrite He. Qed.

(** A registered name makes the mapping true, so the first conjunct of
    the guard [client.datasets and dask_key in client.datasets] never
    decides. *)
Lemma datasets_guard key (ds : gmap string DataFrame) :
  datasets_bool ds && datasets_contains key ds = datasets_contains key ds.
Proof.
  unfold datasets_bool, datasets_contains.
  destruct (bool_decide (is_Some (ds !! key))) eqn:E; [|by rewrite andb_false_r].
  apply bool_decide_eq_true in E as [v Hv].
  rewrite andb_true_r. apply bool_decide_eq_true.
  intros ->. by rewrite lookup_empty in Hv.
Qed.

Lemma datasets_contains_delete key (ds : gmap string DataFrame) :
  datasets_contains key (delete key ds) = false.
Proof.
  apply bool_decide_eq_false. rewrite lookup_delete_eq. by intros [? ?].
Qed.

Lemma load_dask_eq src key ic xc p rd sk s c df :
  dask_client (context s) = Some c →
  as_df src = inr df →
  load_dask src key ic xc p rd sk s =
    (Returned PyNone,
     mkState
       (mkCtx (Some c) (truthy (context s))
          (artifacts (context s) ++ [(sk, sk +:+ ".json")]))
       (if p then republished persist c key df (clients s) else clients s)
       (<[sk +:+ ".json" := scheduler_info (clients s c)]> (files s))
       (trace s ++
          Ev_as_df src ::
          (if p then
             Ev_persist c df ::
             (if datasets_contains key (datasets (clients s c))
              then [Ev_unpublish_dataset c key] else []) ++
             [Ev_publish_dataset c (persist df) key]
           else []) ++
          [Ev_write_scheduler_file c (sk +:+ ".json");
           Ev_log_artifact sk (sk +:+ ".json")])).
Proof.
  intros Hc He.
  destruct s as [[dc tr art] cl fl t]. cbn in Hc. subst dc.
  run_monad. rewrite He; step.
  destruct p; step.
  - rewrite datasets_guard. unfold republished.
    destruct (datasets_contains key (datasets (cl c))) eqn:E; step.
    + rewrite fn_lookup_alter. step. rewrite datasets_contains_delete. step.
      destruct tr; settle; reflexivity.
    + rewrite E. step.
      destruct tr; settle; reflexivity.
  - destruct tr; settle; reflexivity.
Qed.

(** *** Bookkeeping lemmas *)

Lemma calls_since_app s s' evs :
  trace s' = trace s ++ evs → calls_since s s' = evs.
Proof. unfold calls_since. intros ->. apply drop_app_length. Qed.

Lemma calls_since_refl s : calls_since s s = [].
Proof. apply drop_all. Qed.

Lemma republished_datasets c key df (cl : handle → Client DataFrame) :
  datasets (republished persist c key df cl c)
  = <[key := persist df]> (datasets (cl c)).
Proof.
  unfold republished. rewrite fn_lookup_alter.
  destruct (datasets_contains key (datasets (cl c))); [|done].
  rewrite fn_lookup_alter. cbn. apply insert_delete_eq.
Qed.

Lemma republished_other c c' key df (cl : handle → Client DataFrame) :
  c ≠ c' → republished persist c key df cl c' = cl c'.
Proof.
  intros Hne. unfold republished. rewrite fn_lookup_alter_ne by done.
  destruct (datasets_contains key (datasets (cl c))); [|done].
  by rewrite fn_lookup_alter_ne.
Qed.

(** A registry holds at most one dataframe per name. *)
Lemma registrations_lookup name (ds : gmap string DataFrame) :
  registrations name ds = match ds !! name with Some v => [v] | None => [] end.
Proof.
  unfold registrations.
  induction ds as [|i x m Hi IH] using map_ind.
  - by rewrite map_to_list_empty, lookup_empty.
  - set (f := λ kv : string * DataFrame,
                if decide (kv.1 = name) then Some kv.2 else None) in *.
    assert (Hp : omap f (map_to_list (<[i:=x]> m)) ≡ₚ omap f ((i, x) :: map_to_list m))
      by (by rewrite map_to_list_insert).
    cbn in Hp. unfold f at 2 in Hp. cbn in Hp.
    destruct (decide (i = name)) as [->|Hne].
    + rewrite lookup_insert_eq. rewrite IH, Hi in Hp.
      by apply Permutation_singleton_r.
    + rewrite lookup_insert_ne by done. rewrite IH in Hp.
      destruct (m !! name).
      * by apply Permutation_singleton_r.
      * by apply Permutation_nil_r.
Qed.

(** The handler returns only when a client is present and the data item
    loads; [load_dask_eq] is the converse. *)
Lemma load_dask_success_inv src key ic xc p rd sk s v s' :
  load_dask src key ic xc p rd sk s = (Returned v, s') →
  ∃ c df, dask_client (context s) = Some c ∧ as_df src = inr df.
Proof.
  intros H.
  destruct (dask_client (context s)) as [c|] eqn:Hc.
  - destruct (as_df src) as [e|df] eqn:He; [|by eauto].
    by rewrite (load_dask_load_fails _ _ _ _ _ _ _ _ _ _ Hc He) in H.
  - by rewrite (load_dask_no_client _ _ _ _ _ _ _ _ Hc) in H.
Qed.

(** *** Properties of the handler *)

(** C1.  When the context has no [dask_client] attribute, [load_dask]
    raises its own exception and nothing has happened: the state is the
    one it started from (registry, files, logged artifacts), and no
    collaborator was called, so no load was attempted. *)
Theorem load_dask_missing_client src key ic xc p rd sk s :
  dask_client (context s) = None →
  let r := load_dask src key ic xc p rd sk s in
  r.1 = Raised (Exception "a dask client was not found in the execution context")
  ∧ r.2 = s
  ∧ calls_since s r.2 = [].
Proof.
  intros H r. subst r. rewrite (load_dask_no_client _ _ _ _ _ _ _ _ H).
  cbn [fst snd]. by rewrite calls_since_refl.
Qed.

(** C2.  With [dask_persist=True], a client in the context and a data
    item that loads, whatever the registry held before, [load_dask]
    returns, the registry holds exactly one registration under [dask_key],
    the persisted dataframe, every other name and every other client is as
    before, and the registry calls were persist, then unpublish when the
    name was taken, then publish. *)
Theorem load_dask_persist_one_registration src key ic xc rd sk s c df :
  dask_client (context s) = Some c →
  as_df src = inr df →
  let ds := datasets (clients s c) in
  let r := load_dask src key ic xc true rd sk s in
  r.1 = Returned PyNone
  ∧ registrations key (datasets (clients r.2 c)) = [persist df]
  ∧ datasets (clients r.2 c) = <[key := persist df]> ds
  ∧ (∀ c', c ≠ c' → clients r.2 c' = clients s c')
  ∧ List.filter registry_call (calls_since s r.2)
    = Ev_persist c df ::
      (if decide (is_Some (ds !! key)) then [Ev_unpublish_dataset c key] else [])
      ++ [Ev_publish_dataset c (persist df) key].
Proof.
  intros Hc He ds r. subst r.
  rewrite (load_dask_eq _ _ _ _ _ _ _ _ _ _ Hc He). cbn [fst snd clients].
  rewrite republished_datasets. fold ds.
  split_and!; [done| |done| |].
  - by rewrite registrations_lookup, lookup_insert_eq.
  - intros c' Hne. by apply republished_other.
  - erewrite calls_since_app by (cbn [trace]; reflexivity).
    fold ds. unfold datasets_contains.
    destruct (decide (is_Some (ds !! key))) as [Hin|Hout].
    + by rewrite (bool_decide_eq_true_2 _ Hin).
    + by rewrite (bool_decide_eq_false_2 _ Hout).
Qed.

(** C3.  With [dask_persist=False], whatever happens (return or raise),
    no client object is changed, so every registry is as it was, and no
    persist, publish_dataset or unpublish_dataset call was made. *)
Theorem load_dask_no_persist_registry_unchanged src key ic xc rd sk s :
  let r := load_dask src key ic xc false rd sk s in
  clients r.2 = clients s
  ∧ List.filter registry_call (calls_since s r.2) = [].
Proof.
  intros r. subst r.
  destruct (dask_client (context s)) as [c|] eqn:Hc.
  - destruct (as_df src) as [e|df] eqn:He.
    + rewrite (load_dask_load_fails _ _ _ _ _ _ _ _ _ _ Hc He). cbn [snd].
      split; [done|]. by erewrite calls_since_app by (cbn [trace set_trace]; reflexivity).
    + rewrite (load_dask_eq _ _ _ _ _ _ _ _ _ _ Hc He). cbn [snd clients].
      split; [done|]. by erewrite calls_since_app by (cbn [trace]; reflexivity).
  - rewrite (load_dask_no_client _ _ _ _ _ _ _ _ Hc). cbn [snd].
    by rewrite calls_since_refl.
Qed.

(** C4.  Whenever [load_dask] returns for a context holding client [c],
    with [dask_persist] true or false, its last two collaborator calls
    are [write_scheduler_file(scheduler_key+".json")] on [c] and then
    [log_artifact(scheduler_key, local_path=scheduler_key+".json")]; the
    file holds the scheduler information of [c], and the artifact is the
    newest logged one. *)
Theorem load_dask_writes_then_logs src key ic xc p rd sk s c v s' :
  dask_client (context s) = Some c →
  load_dask src key ic xc p rd sk s = (Returned v, s') →
  [Ev_write_scheduler_file c (sk +:+ ".json");
   Ev_log_artifact sk (sk +:+ ".json")] `suffix_of` calls_since s s'
  ∧ files s' !! (sk +:+ ".json") = Some (scheduler_info (clients s c))
  ∧ artifacts (context s') = artifacts (context s) ++ [(sk, sk +:+ ".json")].
Proof.
  intros Hc H.
  destruct (load_dask_success_inv _ _ _ _ _ _ _ _ _ _ H) as (c' & df & Hc' & He).
  rewrite Hc in Hc'. injection Hc' as <-.
  rewrite (load_dask_eq _ _ _ _ _ _ _ _ _ _ Hc He) in H.
  injection H as _ <-. cbn [files context artifacts].
  split_and!; [|by rewrite lookup_insert_eq|done].
  erewrite calls_since_app by (cbn [trace]; reflexivity).
  rewrite app_comm_cons. by apply suffix_app_r.
Qed.

(** C5 (amended).  Whenever [load_dask] returns, the value it returns
    is [None]; the scheduler descriptor reaches the caller through the
    file [scheduler_key+".json"], which holds the scheduler information
    of the context's client, and through the artifact logged under
    [scheduler_key]. *)
Theorem load_dask_returns_none src key ic xc p rd sk s v s' :
  load_dask src key ic xc p rd sk s = (Returned v, s') →
  v = PyNone
  ∧ ∃ c, dask_client (context s) = Some c
       ∧ files s' !! (sk +:+ ".json") = Some (scheduler_info (clients s c))
       ∧ (sk, sk +:+ ".json") ∈ artifacts (context s').
Proof.
  intros H.
  destruct (load_dask_success_inv _ _ _ _ _ _ _ _ _ _ H) as (c & df & Hc & He).
  rewrite (load_dask_eq _ _ _ _ _ _ _ _ _ _ Hc He) in H.
  injection H as <- <-. split; [done|]. exists c.
  cbn [files context artifacts]. split_and!; [done|by rewrite lookup_insert_eq|].
  apply elem_of_app. right. apply list_elem_of_singleton. done.
Qed.

(** C6.  In every invocation with scheduler key [k], each
    [write_scheduler_file] call is given the path [k+".json"] and each
    [log_artifact] call the key [k] and the local path [k+".json"].  When
    the invocation returns there is exactly one call of each, in that
    order, and the file's new content is the scheduler information alone:
    whatever the path held before is gone, other files are as before. *)
Theorem load_dask_descriptor_file_name src key ic xc p rd sk s :
  let r := load_dask src key ic xc p rd sk s in
  Forall (named_after sk) (calls_since s r.2)
  ∧ ∀ c v, dask_client (context s) = Some c → r.1 = Returned v →
      List.filter descriptor_call (calls_since s r.2)
      = [Ev_write_scheduler_file c (sk +:+ ".json");
         Ev_log_artifact sk (sk +:+ ".json")]
      ∧ files r.2 = <[sk +:+ ".json" := scheduler_info (clients s c)]> (files s).
Proof.
  intros r. subst r.
  destruct (dask_client (context s)) as [c|] eqn:Hc.
  - destruct (as_df src) as [e|df] eqn:He.
    + rewrite (load_dask_load_fails _ _ _ _ _ _ _ _ _ _ Hc He). cbn [fst snd].
      erewrite calls_since_app by (cbn [trace set_trace]; reflexivity).
      split; [by repeat constructor|]. by intros c' v _ ?.
    + rewrite (load_dask_eq _ _ _ _ _ _ _ _ _ _ Hc He). cbn [fst snd files].
      erewrite calls_since_app by (cbn [trace]; reflexivity).
      split.
      * destruct p; [destruct (datasets_contains _ _)|]; by repeat constructor.
      * intros c' v [= <-] _. split; [|done].
        destruct p; [destruct (datasets_contains _ _)|]; done.
  - rewrite (load_dask_no_client _ _ _ _ _ _ _ _ Hc). cbn [fst snd].
    rewrite calls_since_refl. split; [constructor|]. by intros c v ?.
Qed.

(** C7.  Two invocations in a row with [dask_persist=True] and the same
    [dask_key], on data items that load to [df1] and then [df2]: both
    return, the second one unpublishes the name before publishing, and
    afterwards the registry holds under the name the persisted [df2] and
    nothing else, all other names being as they were at the start. *)
Theorem load_dask_twice_replaces
    src1 src2 key ic1 xc1 rd1 sk1 ic2 xc2 rd2 sk2 s c df1 df2 :
  dask_client (context s) = Some c →
  as_df src1 = inr df1 →
  as_df src2 = inr df2 →
  let r1 := load_dask src1 key ic1 xc1 true rd1 sk1 s in
  let r2 := load_dask src2 key ic2 xc2 true rd2 sk2 r1.2 in
  r1.1 = Returned PyNone
  ∧ r2.1 = Returned PyNone
  ∧ datasets (clients r2.2 c) !! key = Some (persist df2)
  ∧ registrations key (datasets (clients r2.2 c)) = [persist df2]
  ∧ datasets (clients r2.2 c) = <[key := persist df2]> (datasets (clients s c))
  ∧ List.filter registry_call (calls_since r1.2 r2.2)
    = [Ev_persist c df2; Ev_unpublish_dataset c key;
       Ev_publish_dataset c (persist df2) key].
Proof.
  intros Hc He1 He2 r1 r2. subst r2 r1.
  rewrite (load_dask_eq _ _ _ _ _ _ _ _ _ _ Hc He1). cbn [fst snd].
  match goal with |- context [load_dask _ _ _ _ _ _ _ ?s1] => set (s1' := s1) end.
  assert (Hc1 : dask_client (context s1') = Some c) by done.
  rewrite (load_dask_eq _ _ _ _ _ _ _ _ _ _ Hc1 He2). cbn [fst snd clients].
  rewrite republished_datasets. subst s1'. cbn [clients trace].
  rewrite republished_datasets, insert_insert_eq.
  split_and!; try done.
  - by rewrite lookup_insert_eq.
  - by rewrite registrations_lookup, lookup_insert_eq.
  - erewrite calls_since_app by (cbn [trace]; reflexivity).
    unfold datasets_contains. rewrite bool_decide_eq_true_2; [done|].
    rewrite lookup_insert_eq. by eexists.
Qed.

(** C8.  [refresh_data] is never read: two invocations that differ only
    in it give the same outcome and the same final state.  In particular
    with [refresh_data=False] and [dask_key] already registered the
    handler returns instead of raising. *)
Theorem load_dask_refresh_data_ignored src key ic xc p rd rd' sk s :
  load_dask src key ic xc p rd sk s = load_dask src key ic xc p rd' sk s
  ∧ ∀ c df, dask_client (context s) = Some c →
      as_df src = inr df →
      is_Some (datasets (clients s c) !! key) →
      (load_dask src key ic xc p false sk s).1 = Returned PyNone.
Proof.
  split; [reflexivity|]. intros c df Hc He _.
  by rewrite (load_dask_eq _ _ _ _ _ _ _ _ _ _ Hc He).
Qed.

(** Each collaborator appends its own call to the log and changes the
    client store as [apply_call] says, whatever its outcome. *)
Lemma DataItem_as_df_call src s :
  let s' := (DataItem_as_df as_df src s).2 in
  trace s' = trace s ++ [Ev_as_df src]
  ∧ clients s' = apply_call (DataItem := DataItem) (Ev_as_df src) (clients s).
Proof.
  unfold DataItem_as_df, emit, modify, mbind, M_bind, mret, M_ret, mthrow, M_throw.
  cbn [fst snd]. by destruct (as_df src).
Qed.

Lemma Client_persist_call c df s :
  let s' := (Client_persist persist c df s).2 in
  trace s' = trace s ++ [Ev_persist c df]
  ∧ clients s' = apply_call (DataItem := DataItem) (Ev_persist c df) (clients s).
Proof. done. Qed.

Lemma Client_unpublish_dataset_call c name s :
  let s' := (Client_unpublish_dataset c name s).2 in
  trace s' = trace s ++ [Ev_unpublish_dataset c name]
  ∧ clients s' = apply_call (DataItem := DataItem) (Ev_unpublish_dataset c name) (clients s).
Proof. done. Qed.

Lemma Client_publish_dataset_call c df name s :
  let s' := (Client_publish_dataset c df name s).2 in
  trace s' = trace s ++ [Ev_publish_dataset c df name]
  ∧ clients s' = apply_call (DataItem := DataItem) (Ev_publish_dataset c df name) (clients s).
Proof.
  unfold Client_publish_dataset, Client_datasets, emit, modify, get,
    mbind, M_bind, mret, M_ret, mthrow, M_throw, apply_call.
  cbn [fst snd set_trace clients].
  by destruct (datasets_contains name (datasets (clients s c))).
Qed.

Lemma Client_write_scheduler_file_call c path s :
  let s' := (Client_write_scheduler_file c path s).2 in
  trace s' = trace s ++ [Ev_write_scheduler_file c path]
  ∧ clients s' = apply_call (DataItem := DataItem) (Ev_write_scheduler_file c path) (clients s).
Proof. done. Qed.

Lemma MLClientCtx_log_artifact_call key local_path s :
  let s' := (MLClientCtx_log_artifact key local_path s).2 in
  trace s' = trace s ++ [Ev_log_artifact key local_path]
  ∧ clients s' = apply_call (DataItem := DataItem) (Ev_log_artifact key local_path) (clients s).
Proof. done. Qed.

Lemma replay_app (pre post : list Event) (cl : handle → Client DataFrame) :
  replay (pre ++ post) cl = replay post (replay pre cl).
Proof. revert cl. induction pre as [|e pre IH]; intros cl; [done|apply IH]. Qed.

(** What [unpublish_registered] says of one call: the name is registered
    in the store reached by the calls before it. *)
Lemma unpublish_registered_at (pre post : list Event) c name
    (cl : handle → Client DataFrame) :
  unpublish_registered cl (pre ++ Ev_unpublish_dataset c name :: post) →
  is_Some (datasets (replay pre cl c) !! name).
Proof.
  revert cl. induction pre as [|e pre IH]; intros cl.
  - by intros [[H _] _].
  - intros [_ H]. by apply IH.
Qed.

(** C9.  In every invocation, each [unpublish_dataset] call finds its name
    in the registry as it is at the moment of the call (the registry
    reached through the calls made before it), and that registry is not
    empty.  Replaying the logged calls gives the client store the run ends
    with.  A run that unpublishes at all does so once, on the context's
    client, with [dask_persist] set, for [dask_key], which was registered
    when the run started; its calls are then exactly load, persist,
    unpublish, publish, write, log. *)
Theorem load_dask_unpublish_only_registered src key ic xc p rd sk s :
  let r := load_dask src key ic xc p rd sk s in
  let calls := calls_since s r.2 in
  unpublish_registered (clients s) calls
  ∧ replay calls (clients s) = clients r.2
  ∧ ∀ c n, In (Ev_unpublish_dataset c n) calls →
      n = key ∧ p = true
      ∧ dask_client (context s) = Some c
      ∧ is_Some (datasets (clients s c) !! n)
      ∧ datasets (clients s c) ≠ ∅
      ∧ ∃ df, calls
          = [Ev_as_df src; Ev_persist c df; Ev_unpublish_dataset c n;
             Ev_publish_dataset c (persist df) n;
             Ev_write_scheduler_file c (sk +:+ ".json");
             Ev_log_artifact sk (sk +:+ ".json")].
Proof.
  intros r calls. subst calls r.
  destruct (dask_client (context s)) as [c'|] eqn:Hc.
  - destruct (as_df src) as [e|df] eqn:He.
    + rewrite (load_dask_load_fails _ _ _ _ _ _ _ _ _ _ Hc He). cbn [snd].
      erewrite calls_since_app by (cbn [trace set_trace]; reflexivity).
      split_and!; [by cbn|done|]. cbn. intros c n [[=]|[]].
    + rewrite (load_dask_eq _ _ _ _ _ _ _ _ _ _ Hc He). cbn [snd clients].
      erewrite calls_since_app by (cbn [trace]; reflexivity).
      destruct p.
      * unfold republished.
        destruct (datasets_contains key (datasets (clients s c'))) eqn:E.
        -- assert (Hin : is_Some (datasets (clients s c') !! key))
             by (by apply bool_decide_eq_true in E).
           assert (Hne : datasets (clients s c') ≠ ∅).
           { destruct Hin as [x Hx]. intros Hemp.
             by rewrite Hemp, lookup_empty in Hx. }
           split_and!.
           ++ by cbn [app unpublish_registered apply_call].
           ++ cbn [app replay apply_call]. rewrite fn_lookup_alter.
              cbn [set_datasets datasets]. by rewrite datasets_contains_delete.
           ++ cbn [app In].
              intros c n [[=]|[[=]|[[= <- <-]|[[=]|[[=]|[[=]|[]]]]]]].
              split_and!; try done. by eexists.
        -- split_and!.
           ++ by cbn [app unpublish_registered apply_call].
           ++ cbn [app replay apply_call]. by rewrite E.
           ++ cbn [app In]. intros c n [[=]|[[=]|[[=]|[[=]|[[=]|[]]]]]].
      * split_and!; [by cbn|done|].
        cbn [app In]. intros c n [[=]|[[=]|[[=]|[]]]].
  - rewrite (load_dask_no_client _ _ _ _ _ _ _ _ Hc). cbn [snd].
    rewrite calls_since_refl. split_and!; [done|done|]. intros c n [].
Qed.

(** C10.  Whenever [load_dask] returns, the context had a [dask_client]
    attribute and it still holds the same client handle afterwards. *)
Theorem load_dask_keeps_client src key ic xc p rd sk s v s' :
  load_dask src key ic xc p rd sk s = (Returned v, s') →
  is_Some (dask_client (context s))
  ∧ dask_client (context s') = dask_client (context s).
Proof.
  intros H.
  destruct (load_dask_success_inv _ _ _ _ _ _ _ _ _ _ H) as (c & df & Hc & He).
  rewrite (load_dask_eq _ _ _ _ _ _ _ _ _ _ Hc He) in H.
  injection H as _ <-. rewrite Hc. by split; [eexists|].
Qed.

(** *** Further properties of the handler *)


(** X1.  When the context holds a client and the data item fails to load,
    [load_dask] raises the loader's own exception, with [dask_persist] true
    or false alike; the load is the only collaborator call, and the
    context, the clients and the files are as before: nothing is published
    and no descriptor is written or logged. *)
Theorem load_dask_load_error_propagates src key ic xc p rd sk s c e :
  dask_client (context s) = Some c →
  as_df src = inl e →
  let r := load_dask src key ic xc p rd sk s in
  r.1 = Raised e
  ∧ calls_since s r.2 = [Ev_as_df src]
  ∧ context r.2 = context s
  ∧ clients r.2 = clients s
  ∧ files r.2 = files s.
Proof.
  intros Hc He r. subst r.
  rewrite (load_dask_load_fails _ _ _ _ _ _ _ _ _ _ Hc He). cbn [fst snd].
  split_and!; try done.
  by erewrite calls_since_app by (cbn [trace set_trace]; reflexivity).
Qed.

(** X2.  In every invocation, each [publish_dataset] call finds its name
    free in the registry as it is at the moment of the call: the name was
    not registered, or the call just before unpublished it.  The refusal of
    a taken name is therefore never met by the handler.  The call is for
    [dask_key], under [dask_persist], and the registry the run ends with
    holds the published dataframe under that name. *)
Theorem load_dask_publish_never_collides src key ic xc p rd sk s :
  let r := load_dask src key ic xc p rd sk s in
  let calls := calls_since s r.2 in
  publish_unregistered (clients s) calls
  ∧ ∀ c df n, In (Ev_publish_dataset c df n) calls →
      n = key ∧ p = true ∧ datasets (clients r.2 c) !! n = Some df.
Proof.
  intros r calls. subst calls r.
  destruct (dask_client (context s)) as [c'|] eqn:Hc.
  - destruct (as_df src) as [e|df] eqn:He.
    + rewrite (load_dask_load_fails _ _ _ _ _ _ _ _ _ _ Hc He). cbn [snd].
      erewrite calls_since_app by (cbn [trace set_trace]; reflexivity).
      split; [by cbn|]. cbn. intros c df n [[=]|[]].
    + rewrite (load_dask_eq _ _ _ _ _ _ _ _ _ _ Hc He). cbn [snd clients].
      erewrite calls_since_app by (cbn [trace]; reflexivity).
      destruct p.
      * destruct (datasets_contains key (datasets (clients s c'))) eqn:E.
        -- split.
           ++ cbn [app publish_unregistered apply_call].
              rewrite fn_lookup_alter. cbn [set_datasets datasets].
              by rewrite lookup_delete_eq.
           ++ cbn [app In].
              intros c df' n [[=]|[[=]|[[=]|[[= <- <- <-]|[[=]|[[=]|[]]]]]]].
              rewrite republished_datasets. by rewrite lookup_insert_eq.
        -- split.
           ++ cbn [app publish_unregistered apply_call].
              apply bool_decide_eq_false in E.
              by apply eq_None_not_Some in E.
           ++ cbn [app In].
              intros c df' n [[=]|[[=]|[[= <- <- <-]|[[=]|[[=]|[]]]]]].
              rewrite republished_datasets. by rewrite lookup_insert_eq.
      * split; [by cbn|].
        cbn [app In]. intros c df' n [[=]|[[=]|[[=]|[]]]].
  - rewrite (load_dask_no_client _ _ _ _ _ _ _ _ Hc). cbn [snd].
    rewrite calls_since_refl. split; [done|]. intros c df n [].
Qed.

(** X3.  The guard [dask_client.datasets and dask_key in
    dask_client.datasets] holds exactly when the name is registered: the
    truth test of the mapping never changes the decision. *)
Theorem unpublish_guard_is_membership key (ds : gmap string DataFrame) :
  datasets_bool ds && datasets_contains key ds = true ↔ is_Some (ds !! key).
Proof.
  rewrite datasets_guard. unfold datasets_contains.
  by rewrite bool_decide_eq_true.
Qed.

(** X5.  Whatever the outcome, the only file an invocation can change is
    [scheduler_key+".json"]: every other path holds what it held before. *)
Theorem load_dask_other_files_untouched src key ic xc p rd sk s path :
  path ≠ sk +:+ ".json" →
  files (load_dask src key ic xc p rd sk s).2 !! path = files s !! path.
Proof.
  intros Hne.
  destruct (dask_client (context s)) as [c|] eqn:Hc.
  - destruct (as_df src) as [e|df] eqn:He.
    + by rewrite (load_dask_load_fails _ _ _ _ _ _ _ _ _ _ Hc He).
    + rewrite (load_dask_eq _ _ _ _ _ _ _ _ _ _ Hc He). cbn [snd files].
      by rewrite lookup_insert_ne.
  - by rewrite (load_dask_no_client _ _ _ _ _ _ _ _ Hc).
Qed.

(** X6.  Artifacts logged earlier are never dropped or reordered: a run
    that returns appends exactly one artifact, (scheduler_key,
    scheduler_key+".json"), and a run that raises logs nothing.  The truth
    value of the context is not changed either way. *)
Theorem load_dask_artifacts_append_only src key ic xc p rd sk s :
  let r := load_dask src key ic xc p rd sk s in
  artifacts (context r.2)
  = artifacts (context s)
    ++ match r.1 with
       | Returned _ => [(sk, sk +:+ ".json")]
       | Raised _ => []
       end
  ∧ truthy (context r.2) = truthy (context s).
Proof.
  intros r. subst r.
  destruct (dask_client (context s)) as [c|] eqn:Hc.
  - destruct (as_df src) as [e|df] eqn:He.
    + rewrite (load_dask_load_fails _ _ _ _ _ _ _ _ _ _ Hc He).
      cbn [fst snd set_trace context]. by rewrite app_nil_r.
    + by rewrite (load_dask_eq _ _ _ _ _ _ _ _ _ _ Hc He).
  - rewrite (load_dask_no_client _ _ _ _ _ _ _ _ Hc). cbn [fst snd].
    by rewrite app_nil_r.
Qed.

(** X7.  After a persisting run that returns, the published names are the
    earlier names together with [dask_key]; the registry has one more
    entry when the name was new and the same number when it was taken. *)
Theorem load_dask_published_names src key ic xc rd sk s c df :
  dask_client (context s) = Some c →
  as_df src = inr df →
  let ds := datasets (clients s c) in
  let ds' := datasets (clients (load_dask src key ic xc true rd sk s).2 c) in
  dom ds' =@{gset string} {[ key ]} ∪ dom ds
  ∧ size ds' = if decide (is_Some (ds !! key)) then size ds else S (size ds).
Proof.
  intros Hc He ds ds'. subst ds'.
  rewrite (load_dask_eq _ _ _ _ _ _ _ _ _ _ Hc He). cbn [snd clients].
  rewrite republished_datasets. fold ds. split; [apply dom_insert_L|].
  destruct (decide (is_Some (ds !! key))) as [Hin|Hout].
  - by apply map_size_insert_Some.
  - apply map_size_insert_None. by apply eq_None_not_Some.
Qed.


(** X9.  Two persisting runs in a row under different dataset names leave
    both datasets published: the second run does not disturb the first
    registration. *)
Theorem load_dask_two_keys
    src1 src2 key1 key2 ic1 xc1 rd1 sk1 ic2 xc2 rd2 sk2 s c df1 df2 :
  dask_client (context s) = Some c →
  as_df src1 = inr df1 →
  as_df src2 = inr df2 →
  key1 ≠ key2 →
  let r1 := load_dask src1 key1 ic1 xc1 true rd1 sk1 s in
  let r2 := load_dask src2 key2 ic2 xc2 true rd2 sk2 r1.2 in
  let ds2 := datasets (clients r2.2 c) in
  ds2 !! key1 = Some (persist df1)
  ∧ ds2 !! key2 = Some (persist df2)
  ∧ ds2 = <[key2 := persist df2]> (<[key1 := persist df1]> (datasets (clients s c))).
Proof.
  intros Hc He1 He2 Hkey r1 r2 ds2. subst ds2 r2 r1.
  rewrite (load_dask_eq _ _ _ _ _ _ _ _ _ _ Hc He1). cbn [snd].
  match goal with |- context [load_dask _ _ _ _ _ _ _ ?s1] => set (s1' := s1) end.
  assert (Hc1 : dask_client (context s1') = Some c) by done.
  rewrite (load_dask_eq _ _ _ _ _ _ _ _ _ _ Hc1 He2).
  subst s1'. cbn [snd clients].
  rewrite !republished_datasets. split_and!; [|by rewrite lookup_insert_eq|done].
  rewrite lookup_insert_ne by done. by rewrite lookup_insert_eq.
Qed.

End Properties.

(** ** Properties of the configuration cell *)

Lemma py_truthy_artifacts (home : string) :
  py_truthy (PyStr (home +:+ "/artifacts")) = true.
Proof. by destruct home. Qed.

Lemma mlconfig_dbpath environ mlconf :
  dbpath (mlconfig environ mlconf).2
  = if py_truthy (dbpath mlconf) then dbpath mlconf
    else PyStr "http://mlrun-api:8080".
Proof.
  unfold mlconfig, py_or, environ_getitem.
  destruct (py_truthy (dbpath mlconf)); cbn [dbpath artifact_path];
    destruct (py_truthy (artifact_path mlconf)); try done;
    by destruct (environ !! "HOME").
Qed.

(** X10.  The cell never replaces a setting that is already configured:
    a true [dbpath] is kept whatever else happens, and with a true
    [artifact_path] the cell completes and keeps it, without looking at
    the environment. *)
Theorem mlconfig_keeps_configured environ mlconf :
  let r := mlconfig environ mlconf in
  (py_truthy (dbpath mlconf) = true → dbpath r.2 = dbpath mlconf)
  ∧ (py_truthy (artifact_path mlconf) = true →
     r.1 = Returned () ∧ artifact_path r.2 = artifact_path mlconf).
Proof.
  intros r. subst r. split.
  - intros H. by rewrite mlconfig_dbpath, H.
  - intros H. unfold mlconfig, py_or.
    destruct (py_truthy (dbpath mlconf)); cbn [dbpath artifact_path];
      by rewrite H.
Qed.

(** X11.  With [artifact_path] unset and no HOME variable the cell stops
    with [KeyError('HOME')]; by then [dbpath] has already received its
    value, and [artifact_path] is left as it was. *)
Theorem mlconfig_home_missing environ mlconf :
  py_truthy (artifact_path mlconf) = false →
  environ !! "HOME" = None →
  let r := mlconfig environ mlconf in
  r.1 = Raised (KeyError "HOME")
  ∧ py_truthy (dbpath r.2) = true
  ∧ artifact_path r.2 = artifact_path mlconf.
Proof.
  intros Ha Hh r. subst r. unfold mlconfig, py_or, environ_getitem.
  destruct (py_truthy (dbpath mlconf)) eqn:Hd; cbn [dbpath artifact_path];
    by rewrite Ha, Hh.
Qed.

(** X12.  The cell completes exactly when [artifact_path] is already set
    or the environment has a HOME variable. *)
Theorem mlconfig_returns_iff environ mlconf :
  (mlconfig environ mlconf).1 = Returned ()
  ↔ py_truthy (artifact_path mlconf) = true ∨ is_Some (environ !! "HOME").
Proof.
  unfold mlconfig, py_or, environ_getitem.
  destruct (py_truthy (dbpath mlconf)); cbn [dbpath artifact_path];
    destruct (py_truthy (artifact_path mlconf)) eqn:Ha;
    destruct (environ !! "HOME") eqn:Hh; cbn [fst];
    split; try done; eauto;
    by intros [?|[? ?]].
Qed.

(** X13.  Whenever the cell completes, both settings are true afterwards,
    also when HOME is the empty string: the artifact path is then
    "/artifacts". *)
Theorem mlconfig_returns_truthy environ mlconf u mlconf' :
  mlconfig environ mlconf = (Returned u, mlconf') →
  py_truthy (dbpath mlconf') = true ∧ py_truthy (artifact_path mlconf') = true.
Proof.
  unfold mlconfig, py_or, environ_getitem.
  destruct (py_truthy (dbpath mlconf)) eqn:Hd; cbn [dbpath artifact_path];
    destruct (py_truthy (artifact_path mlconf)) eqn:Ha;
    try destruct (environ !! "HOME") as [home|];
    intros [= <- <-]; cbn [dbpath artifact_path];
    by rewrite ?py_truthy_artifacts.
Qed.

(** X14.  Once the cell has completed, running it again, in any
    environment, completes and changes nothing. *)
Theorem mlconfig_idempotent environ environ' mlconf u mlconf' :
  mlconfig environ mlconf = (Returned u, mlconf') →
  mlconfig environ' mlconf' = (Returned (), mlconf').
Proof.
  unfold mlconfig at 1, py_or, environ_getitem.
  destruct (py_truthy (dbpath mlconf)) eqn:Hd; cbn [dbpath artifact_path];
    destruct (py_truthy (artifact_path mlconf)) eqn:Ha;
    try destruct (environ !! "HOME") as [home|];
    intros [= <- <-]; unfold mlconfig, py_or; cbn [dbpath artifact_path];
    by rewrite ?Hd, ?Ha, ?py_truthy_artifacts.
Qed.

(** ** The statements at work on the concrete run *)

Section Witnesses.

Import Demo.

(** C1 on a context without client. *)
Lemma load_dask_missing_client_witness :
  dask_client (context s_no_client) = None
  ∧ (run "iris.parquet" true true s_no_client).2 = s_no_client.
Proof.
  split; [reflexivity|].
  apply (load_dask_missing_client as_df persist "iris.parquet" "dask_key"
           None None true true "scheduler" s_no_client).
  reflexivity.
Defined.

(** C2 on a registry that already holds "dask_key". *)
Lemma load_dask_persist_one_registration_witness :
  registrations "dask_key" (datasets (clients s_taken 0)) = [[9; 9]]
  ∧ registrations "dask_key"
      (datasets (clients (run "iris.parquet" true true s_taken).2 0))
    = [[5; 3; 1]].
Proof.
  split; [vm_compute; reflexivity|].
  apply (load_dask_persist_one_registration as_df persist "iris.parquet"
           "dask_key" None None true "scheduler" s_taken 0 [5; 3; 1]).
  - reflexivity.
  - vm_compute; reflexivity.
Defined.

(** C4 without persistence: the descriptor is written and logged all
    the same. *)
Lemma load_dask_writes_then_logs_witness :
  let s' := (run "iris.parquet" false true s_fresh).2 in
  run "iris.parquet" false true s_fresh = (Returned PyNone, s')
  ∧ files s' !! "scheduler.json" = Some "{address: tcp://10.0.0.7:8786}"
  ∧ artifacts (context s') = [("scheduler", "scheduler.json")].
Proof.
  intros s'.
  assert (H : run "iris.parquet" false true s_fresh = (Returned PyNone, s'))
    by (vm_compute; reflexivity).
  split; [exact H|].
  apply (load_dask_writes_then_logs as_df persist "iris.parquet" "dask_key"
           None None false true "scheduler" s_fresh 0 PyNone s' eq_refl H).
Defined.

(** C5: a run that returns, and returns [None], not a descriptor. *)
Lemma load_dask_returns_descriptor_counterexample :
  let r := run "iris.parquet" true true s_fresh in
  r.1 = Returned PyNone ∧ ¬ ∃ json, r.1 = Returned (PyStr json).
Proof.
  intros r.
  assert (H : r.1 = Returned PyNone) by (vm_compute; reflexivity).
  split; [exact H|]. intros [json Hjson]. rewrite H in Hjson. discriminate.
Defined.

(** C5 (amended) on the same run. *)
Lemma load_dask_returns_none_witness :
  let s' := (run "iris.parquet" true true s_fresh).2 in
  run "iris.parquet" true true s_fresh = (Returned PyNone, s')
  ∧ files s' !! "scheduler.json" = Some "{address: tcp://10.0.0.7:8786}".
Proof.
  intros s'.
  assert (H : run "iris.parquet" true true s_fresh = (Returned PyNone, s'))
    by (vm_compute; reflexivity).
  split; [exact H|].
  destruct (load_dask_returns_none as_df persist "iris.parquet" "dask_key"
              None None true true "scheduler" s_fresh PyNone s' H)
    as (_ & c & Hc & Hfile & _).
  injection Hc as <-. exact Hfile.
Defined.

(** C6 on a state whose "scheduler.json" is stale: the old content is
    replaced. *)
Lemma load_dask_descriptor_file_name_witness :
  files s_taken !! "scheduler.json" = Some "{address: tcp://10.0.0.1:8786}"
  ∧ files (run "iris.parquet" true true s_taken).2
    = <["scheduler.json" := "{address: tcp://10.0.0.7:8786}"]> (files s_taken).
Proof.
  split; [vm_compute; reflexivity|].
  apply (load_dask_descriptor_file_name as_df persist "iris.parquet" "dask_key"
           None None true true "scheduler" s_taken) with (c := 0) (v := PyNone).
  - reflexivity.
  - vm_compute; reflexivity.
Defined.

(** C7: iris first, wine second. *)
Lemma load_dask_twice_replaces_witness :
  let s1 := (run "iris.parquet" true true s_fresh).2 in
  let s2 := (run "wine.parquet" true true s1).2 in
  datasets (clients s1 0) !! "dask_key" = Some [5; 3; 1]
  ∧ registrations "dask_key" (datasets (clients s2 0)) = [[7; 2]].
Proof.
  intros s1 s2. split; [vm_compute; reflexivity|].
  apply (load_dask_twice_replaces as_df persist "iris.parquet" "wine.parquet"
           "dask_key" None None true "scheduler" None None true "scheduler"
           s_fresh 0 [5; 3; 1] [7; 2]).
  - reflexivity.
  - vm_compute; reflexivity.
  - vm_compute; reflexivity.
Defined.

(** C8: [refresh_data=False] on a taken name returns. *)
Lemma load_dask_refresh_data_ignored_witness :
  is_Some (datasets (clients s_taken 0) !! "dask_key")
  ∧ (run "iris.parquet" true false s_taken).1 = Returned PyNone.
Proof.
  assert (Hin : is_Some (datasets (clients s_taken 0) !! "dask_key"))
    by (vm_compute; eexists; reflexivity).
  split; [exact Hin|].
  apply (load_dask_refresh_data_ignored as_df persist "iris.parquet" "dask_key"
           None None true true false "scheduler" s_taken) with (c := 0) (df := [5; 3; 1]).
  - reflexivity.
  - vm_compute; reflexivity.
  - exact Hin.
Defined.

(** C9: the run on the taken name does call [unpublish_dataset]. *)
Lemma load_dask_unpublish_only_registered_witness :
  In (Ev_unpublish_dataset 0 "dask_key")
     (calls_since s_taken (run "iris.parquet" true true s_taken).2)
  ∧ is_Some (datasets (clients s_taken 0) !! "dask_key").
Proof.
  assert (Hin : In (Ev_unpublish_dataset 0 "dask_key")
                  (calls_since s_taken (run "iris.parquet" true true s_taken).2))
    by (vm_compute; right; right; left; reflexivity).
  split; [exact Hin|].
  destruct (load_dask_unpublish_only_registered as_df persist "iris.parquet"
              "dask_key" None None true true "scheduler" s_taken)
    as (_ & _ & H).
  exact (proj1 (proj2 (proj2 (proj2 (H 0 "dask_key" Hin))))).
Defined.

(** C10: the handle is still client 0 after the run. *)
Lemma load_dask_keeps_client_witness :
  let s' := (run "iris.parquet" true true s_fresh).2 in
  run "iris.parquet" true true s_fresh = (Returned PyNone, s')
  ∧ dask_client (context s') = Some 0.
Proof.
  intros s'.
  assert (H : run "iris.parquet" true true s_fresh = (Returned PyNone, s'))
    by (vm_compute; reflexivity).
  split; [exact H|].
  apply (load_dask_keeps_client as_df persist "iris.parquet" "dask_key"
           None None true true "scheduler" s_fresh PyNone s' H).
Defined.

End Witnesses.

Section MoreWitnesses.

Import Demo ConfigDemo.

(** X1 on an item that does not load. *)
Lemma load_dask_load_error_propagates_witness :
  as_df "nope.parquet" = inl (Exception "cannot read nope.parquet")
  ∧ (run "nope.parquet" true true s_taken).1
    = Raised (Exception "cannot read nope.parquet")
  ∧ files (run "nope.parquet" true true s_taken).2 = files s_taken.
Proof.
  assert (He : as_df "nope.parquet" = inl (Exception "cannot read nope.parquet"))
    by (vm_compute; reflexivity).
  split; [exact He|].
  destruct (load_dask_load_error_propagates as_df persist "nope.parquet"
              "dask_key" None None true true "scheduler" s_taken 0 _ eq_refl He)
    as (H1 & _ & _ & _ & H5).
  split; [exact H1 | exact H5].
Defined.

(** X2: the run on the taken name publishes after unpublishing. *)
Lemma load_dask_publish_never_collides_witness :
  In (Ev_publish_dataset 0 [5; 3; 1] "dask_key")
     (calls_since s_taken (run "iris.parquet" true true s_taken).2)
  ∧ datasets (clients (run "iris.parquet" true true s_taken).2 0) !! "dask_key"
    = Some [5; 3; 1].
Proof.
  assert (Hin : In (Ev_publish_dataset 0 [5; 3; 1] "dask_key")
                  (calls_since s_taken (run "iris.parquet" true true s_taken).2))
    by (vm_compute; right; right; right; left; reflexivity).
  split; [exact Hin|].
  destruct (load_dask_publish_never_collides as_df persist "iris.parquet"
              "dask_key" None None true true "scheduler" s_taken) as [_ H].
  exact (proj2 (proj2 (H 0 [5; 3; 1] "dask_key" Hin))).
Defined.

(** X3 on the registry of [s_taken]. *)
Lemma unpublish_guard_is_membership_witness :
  is_Some (datasets (clients s_taken 0) !! "dask_key")
  ∧ datasets_bool (datasets (clients s_taken 0))
    && datasets_contains "dask_key" (datasets (clients s_taken 0)) = true.
Proof.
  assert (Hin : is_Some (datasets (clients s_taken 0) !! "dask_key"))
    by (vm_compute; eexists; reflexivity).
  split; [exact Hin|].
  exact (proj2 (unpublish_guard_is_membership "dask_key"
                  (datasets (clients s_taken 0))) Hin).
Defined.

(** X5: a file of the user's survives the run. *)
Lemma load_dask_other_files_untouched_witness :
  "notes.txt" ≠ "scheduler" +:+ ".json"
  ∧ files (run "iris.parquet" true true
             (set_files (insert "notes.txt" "keep") s_taken)).2 !! "notes.txt"
    = Some "keep".
Proof.
  assert (Hne : "notes.txt" ≠ "scheduler" +:+ ".json") by discriminate.
  split; [exact Hne|].
  eapply eq_trans.
  - exact (load_dask_other_files_untouched as_df persist "iris.parquet"
             "dask_key" None None true true "scheduler"
             (set_files (insert "notes.txt" "keep") s_taken) "notes.txt" Hne).
  - vm_compute; reflexivity.
Defined.

(** X7 on a new name and on a taken one. *)
Lemma load_dask_published_names_witness :
  size (datasets (clients (run "iris.parquet" true true s_fresh).2 0)) = 1
  ∧ size (datasets (clients (run "iris.parquet" true true s_taken).2 0)) = 1.
Proof.
  split.
  - destruct (load_dask_published_names as_df persist "iris.parquet" "dask_key"
                None None true "scheduler" s_fresh 0 [5; 3; 1] eq_refl)
      as [_ H]; [vm_compute; reflexivity|].
    eapply eq_trans; [exact H|vm_compute; reflexivity].
  - destruct (load_dask_published_names as_df persist "iris.parquet" "dask_key"
                None None true "scheduler" s_taken 0 [5; 3; 1] eq_refl)
      as [_ H]; [vm_compute; reflexivity|].
    eapply eq_trans; [exact H|vm_compute; reflexivity].
Defined.


(** X9: names "iris" and "wine". *)
Lemma load_dask_two_keys_witness :
  let s1 := (load_dask as_df persist "iris.parquet" "iris" None None
               true true "scheduler" s_fresh).2 in
  let s2 := (load_dask as_df persist "wine.parquet" "wine" None None
               true true "scheduler" s1).2 in
  "iris" ≠ "wine"
  ∧ datasets (clients s2 0) !! "iris" = Some [5; 3; 1]
  ∧ datasets (clients s2 0) !! "wine" = Some [7; 2].
Proof.
  intros s1 s2.
  assert (Hne : "iris" ≠ "wine") by discriminate.
  split; [exact Hne|].
  destruct (load_dask_two_keys as_df persist
              "iris.parquet" "wine.parquet" "iris" "wine"
              None None true "scheduler" None None true "scheduler"
              s_fresh 0 [5; 3; 1] [7; 2] eq_refl)
    as (H1 & H2 & _); try exact Hne; try (vm_compute; reflexivity).
  split; [exact H1 | exact H2].
Defined.

(** X10: a filled-in configuration in an environment without HOME. *)
Lemma mlconfig_keeps_configured_witness :
  py_truthy (artifact_path preset) = true
  ∧ (mlconfig env_bare preset).1 = Returned ()
  ∧ dbpath (mlconfig env_bare preset).2 = PyStr "http://10.0.0.5:8080".
Proof.
  destruct (mlconfig_keeps_configured env_bare preset) as [Hd Ha].
  split; [reflexivity|]. split.
  - exact (proj1 (Ha eq_refl)).
  - exact (Hd eq_refl).
Defined.

(** X11: a fresh configuration in an environment without HOME. *)
Lemma mlconfig_home_missing_witness :
  env_bare !! "HOME" = None
  ∧ (mlconfig env_bare unset).1 = Raised (KeyError "HOME")
  ∧ py_truthy (dbpath (mlconfig env_bare unset).2) = true.
Proof.
  assert (Hh : env_bare !! "HOME" = None) by (vm_compute; reflexivity).
  split; [exact Hh|].
  destruct (mlconfig_home_missing env_bare unset eq_refl Hh) as (H1 & H2 & _).
  split; [exact H1 | exact H2].
Defined.

(** X12: a fresh configuration with HOME set completes. *)
Lemma mlconfig_returns_iff_witness :
  is_Some (env_home !! "HOME") ∧ (mlconfig env_home unset).1 = Returned ().
Proof.
  assert (Hh : is_Some (env_home !! "HOME")) by (vm_compute; eexists; reflexivity).
  split; [exact Hh|].
  exact (proj2 (mlconfig_returns_iff env_home unset) (or_intror Hh)).
Defined.

(** X13 and X14 on the configuration the cell produces from a fresh one. *)
Lemma mlconfig_returns_truthy_witness :
  let mlconf' := mkConfig (PyStr "http://mlrun-api:8080")
                   (PyStr "/home/joyan/artifacts") in
  mlconfig env_home unset = (Returned (), mlconf')
  ∧ py_truthy (artifact_path mlconf') = true.
Proof.
  intros mlconf'.
  assert (H : mlconfig env_home unset = (Returned (), mlconf'))
    by (vm_compute; reflexivity).
  split; [exact H|].
  exact (proj2 (mlconfig_returns_truthy env_home unset () mlconf' H)).
Defined.

Lemma mlconfig_idempotent_witness :
  let mlconf' := mkConfig (PyStr "http://mlrun-api:8080")
                   (PyStr "/home/joyan/artifacts") in
  mlconfig env_home unset = (Returned (), mlconf')
  ∧ mlconfig env_bare mlconf' = (Returned (), mlconf').
Proof.
  intros mlconf'.
  assert (H : mlconfig env_home unset = (Returned (), mlconf'))
    by (vm_compute; reflexivity).
  split; [exact H|].
  exact (mlconfig_idempotent env_home env_bare unset () mlconf' H).
Defined.

End MoreWitnesses.
